(** * The external scanner of tree-sitter-csv (CSV / PSV / TSV empty fields)

    A shallow embedding of [packages/tree-sitter-csv/src/scanner.c] and the
    properties of its lifecycle functions, its two look-ahead classifiers and
    its [scan] decision procedure.

    The C functions are translated one for one and keep their names.  The
    lexer that [scan] talks to is a state that is threaded through the call;
    every access to it is also recorded in a trace, so that statements about
    the order of the accesses can be made. *)

From Stdlib Require Import ZArith List Bool Ascii Lia.
From Stdlib Require String.
Import ListNotations.
Local Open Scope Z_scope.

(** ** Data *)

(** [enum TokenType { EMPTY_FIELD, ERROR_SENTINEL }]. *)
Inductive TokenType : Type :=
| EMPTY_FIELD
| ERROR_SENTINEL.

(** [TSSymbol] is a [uint16_t]; an enumerator is stored as its C value. *)
Definition TSSymbol : Type := Z.

Definition symbol_of (t : TokenType) : TSSymbol :=
  match t with
  | EMPTY_FIELD => 0
  | ERROR_SENTINEL => 1
  end.

(** [const bool *valid_symbols]: the array the parser passes, with one entry
    per external token; the scanner reads it at an enumerator only. *)
Definition ValidSymbols : Type := TokenType -> bool.

(** A C character constant, as the [int] it denotes. *)
Definition chr (a : ascii) : Z := Z.of_N (N_of_ascii a).

(** [void *]: an address, [NULL] being address 0. *)
Definition void_ptr : Type := Z.
Definition NULL : void_ptr := 0.

(** The bytes of the process memory, by address.  The lifecycle functions
    receive pointers into it ([payload], [buffer]) and are modelled as
    functions from the memory before the call to the memory after it. *)
Definition Memory : Type := Z -> Z.

(** The [n] bytes found at address [p]. *)
Fixpoint read_bytes (m : Memory) (p : Z) (n : nat) : list Z :=
  match n with
  | O => []
  | S k => m p :: read_bytes m (p + 1) k
  end.

(** Modelled from the spec: the [TSLexer] of [tree_sitter/parser.h], whose
    declaration is not part of the scanner's file.  The cursor exposes the
    look-ahead code point, the result symbol, an operation that advances by
    one code point and an operation that marks the current position as the end
    of the token.  Behind these the record keeps the code points of the
    document, the index of the cursor and the marked end.  At the end of the
    input there is no further code point and the look-ahead holds 0. *)
Record TSLexer : Type := mkLexer {
  lookahead : Z;              (* int32_t lookahead *)
  result_symbol : TSSymbol;   (* TSSymbol result_symbol *)
  input : list Z;             (* the code points of the document *)
  position : nat;             (* index of the next code point *)
  token_end : option nat      (* end of the token, once marked *)
}.

Definition code_point_at (doc : list Z) (pos : nat) : Z := nth pos doc 0.

(** [lexer->eof(lexer)]. *)
Definition eof (l : TSLexer) : bool := (length (input l) <=? position l)%nat.

(** The look-ahead field shows the code point under the cursor. *)
Definition lexer_ok (l : TSLexer) : Prop :=
  lookahead l = code_point_at (input l) (position l).

(** The cursor as the parser hands it over at index [pos] of [doc]. *)
Definition lexer_at (doc : list Z) (pos : nat) : TSLexer :=
  {| lookahead := code_point_at doc pos;
     result_symbol := 0;
     input := doc;
     position := pos;
     token_end := None |}.

(** Number of code points between [start] and the end of the token; an end
    that was never marked is the cursor's position. *)
Definition token_width (start : nat) (l : TSLexer) : nat :=
  match token_end l with
  | Some e => (e - start)%nat
  | None => (position l - start)%nat
  end.

(** ** Accesses to the lexer *)

Inductive LexerEvent : Type :=
| EvMarkEnd (pos : nat)
| EvLookahead (c : Z)
| EvResultSymbol (s : TSSymbol)
| EvAdvance (skip : bool).

(** A computation on the lexer: its value, the lexer after it, and the
    accesses it made, first one first. *)
Definition Lex (A : Type) : Type := TSLexer -> A * TSLexer * list LexerEvent.

Definition ret {A} (a : A) : Lex A := fun l => (a, l, []).

Definition bind {A B} (c : Lex A) (k : A -> Lex B) : Lex B :=
  fun l =>
    let '(a, l1, t1) := c l in
    let '(b, l2, t2) := k a l1 in
    (b, l2, t1 ++ t2).

Declare Scope lex_scope.
Delimit Scope lex_scope with lex.
Notation "x <- c ;; k" := (bind c (fun x => k))
  (at level 61, c at next level, right associativity) : lex_scope.
Notation "c ;; k" := (bind c (fun _ => k))
  (at level 61, right associativity) : lex_scope.

Definition verdict {A} (r : A * TSLexer * list LexerEvent) : A := fst (fst r).
Definition lexer_after {A} (r : A * TSLexer * list LexerEvent) : TSLexer :=
  snd (fst r).
Definition trace {A} (r : A * TSLexer * list LexerEvent) : list LexerEvent :=
  snd r.

(** [lexer->lookahead] *)
Definition get_lookahead : Lex Z :=
  fun l => (lookahead l, l, [EvLookahead (lookahead l)]).

(** [lexer->result_symbol = s] *)
Definition set_result_symbol (s : TSSymbol) : Lex unit :=
  fun l =>
    (tt,
     {| lookahead := lookahead l;
        result_symbol := s;
        input := input l;
        position := position l;
        token_end := token_end l |},
     [EvResultSymbol s]).

(** [lexer->mark_end(lexer)] *)
Definition mark_end : Lex unit :=
  fun l =>
    (tt,
     {| lookahead := lookahead l;
        result_symbol := result_symbol l;
        input := input l;
        position := position l;
        token_end := Some (position l) |},
     [EvMarkEnd (position l)]).

(** [lexer->advance(lexer, skip)]: one code point forward, unless the input
    is exhausted. *)
Definition advance (skip : bool) : Lex unit :=
  fun l =>
    (tt,
     if eof l then l
     else
       {| lookahead := code_point_at (input l) (S (position l));
          result_symbol := result_symbol l;
          input := input l;
          position := S (position l);
          token_end := token_end l |},
     [EvAdvance skip]).

(** ** The scanner *)

(** [tree_sitter_csv_external_scanner_create] *)
Definition tree_sitter_csv_external_scanner_create (m : Memory)
  : void_ptr * Memory :=
  (NULL, m).

Definition tree_sitter_psv_external_scanner_create (m : Memory)
  : void_ptr * Memory :=
  tree_sitter_csv_external_scanner_create m.

Definition tree_sitter_tsv_external_scanner_create (m : Memory)
  : void_ptr * Memory :=
  tree_sitter_csv_external_scanner_create m.

(** [tree_sitter_csv_external_scanner_destroy] *)
Definition tree_sitter_csv_external_scanner_destroy
  (payload : void_ptr) (m : Memory) : Memory :=
  m.

Definition tree_sitter_psv_external_scanner_destroy
  (payload : void_ptr) (m : Memory) : Memory :=
  tree_sitter_csv_external_scanner_destroy payload m.

Definition tree_sitter_tsv_external_scanner_destroy
  (payload : void_ptr) (m : Memory) : Memory :=
  tree_sitter_csv_external_scanner_destroy payload m.

(** [tree_sitter_csv_external_scanner_serialize]: the length returned, and
    the memory, which holds the buffer, after the call. *)
Definition tree_sitter_csv_external_scanner_serialize
  (payload : void_ptr) (buffer : Z) (m : Memory) : Z * Memory :=
  (0, m).

Definition tree_sitter_psv_external_scanner_serialize
  (payload : void_ptr) (buffer : Z) (m : Memory) : Z * Memory :=
  tree_sitter_csv_external_scanner_serialize payload buffer m.

Definition tree_sitter_tsv_external_scanner_serialize
  (payload : void_ptr) (buffer : Z) (m : Memory) : Z * Memory :=
  tree_sitter_csv_external_scanner_serialize payload buffer m.

(** [tree_sitter_csv_external_scanner_deserialize] *)
Definition tree_sitter_csv_external_scanner_deserialize
  (payload : void_ptr) (buffer : Z) (length : Z) (m : Memory) : Memory :=
  m.

Definition tree_sitter_psv_external_scanner_deserialize
  (payload : void_ptr) (buffer : Z) (length : Z) (m : Memory) : Memory :=
  tree_sitter_csv_external_scanner_deserialize payload buffer length m.

Definition tree_sitter_tsv_external_scanner_deserialize
  (payload : void_ptr) (buffer : Z) (length : Z) (m : Memory) : Memory :=
  tree_sitter_csv_external_scanner_deserialize payload buffer length m.

(** [is_separator]: comma, tab or pipe. *)
Definition is_separator (c : Z) : bool :=
  (c =? chr ","%char) || (c =? chr "009"%char) || (c =? chr "|"%char).

(** [is_newline]: line feed or carriage return. *)
Definition is_newline (c : Z) : bool :=
  (c =? chr "010"%char) || (c =? chr "013"%char).

Local Open Scope lex_scope.

(** [tree_sitter_csv_external_scanner_scan].  Each [return] of the C function
    is a [ret]; the code after an [if] that returns is the [else] branch. *)
Definition tree_sitter_csv_external_scanner_scan
  (payload : void_ptr) (valid_symbols : ValidSymbols) : Lex bool :=
  if valid_symbols ERROR_SENTINEL then ret false
  else if negb (valid_symbols EMPTY_FIELD) then ret false
  else
    mark_end ;;
    c <- get_lookahead ;;
    if is_separator c then
      set_result_symbol (symbol_of EMPTY_FIELD) ;;
      ret true
    else
      c' <- get_lookahead ;;
      if is_newline c' then
        set_result_symbol (symbol_of EMPTY_FIELD) ;;
        ret true
      else ret false.

Definition tree_sitter_psv_external_scanner_scan
  (payload : void_ptr) (valid_symbols : ValidSymbols) : Lex bool :=
  tree_sitter_csv_external_scanner_scan payload valid_symbols.

Definition tree_sitter_tsv_external_scanner_scan
  (payload : void_ptr) (valid_symbols : ValidSymbols) : Lex bool :=
  tree_sitter_csv_external_scanner_scan payload valid_symbols.

Local Close Scope lex_scope.

(** The three grammars of the package and the scan function each one is
    linked with. *)
Inductive Dialect : Type := Csv | Psv | Tsv.

Definition external_scanner_scan (d : Dialect)
  : void_ptr -> ValidSymbols -> Lex bool :=
  match d with
  | Csv => tree_sitter_csv_external_scanner_scan
  | Psv => tree_sitter_psv_external_scanner_scan
  | Tsv => tree_sitter_tsv_external_scanner_scan
  end.

(** ** What a trace is checked for *)

(** The lexer once [mark_end] has run, and once a result symbol is stored. *)
Definition marked (l : TSLexer) : TSLexer := lexer_after (mark_end l).
Definition emitted (s : TSSymbol) (l : TSLexer) : TSLexer :=
  lexer_after (set_result_symbol s l).

(** No access of the trace moves the cursor. *)
Definition never_advances (tr : list LexerEvent) : Prop :=
  forall skip, ~ In (EvAdvance skip) tr.

(** Whenever the look-ahead is read, the end of the token has already been
    marked at [start]. *)
Definition marked_before_lookahead (start : nat) (tr : list LexerEvent) : Prop :=
  forall pre c post,
    tr = pre ++ EvLookahead c :: post -> In (EvMarkEnd start) pre.

(** The same as a check: [seen] tells whether the mark was met already. *)
Fixpoint lookaheads_marked (start : nat) (seen : bool) (tr : list LexerEvent)
  : bool :=
  match tr with
  | [] => true
  | EvMarkEnd p :: tr' =>
      lookaheads_marked start (seen || (p =? start)%nat) tr'
  | EvLookahead _ :: tr' => seen && lookaheads_marked start seen tr'
  | _ :: tr' => lookaheads_marked start seen tr'
  end.

(** The serialized representation: the bytes of the buffer that the returned
    length covers. *)
Definition serialized (buffer : Z) (r : Z * Memory) : list Z :=
  read_bytes (snd r) buffer (Z.to_nat (fst r)).

(** ** Concrete runs *)

(** The code points of [a,b,] and of [a,,b]. *)
Definition doc_a_b_comma : list Z := [97; 44; 98; 44].
Definition doc_a_comma_comma_b : list Z := [97; 44; 44; 98].
(** [a,b] followed by a line feed, and [a] TAB TAB [b]. *)
Definition doc_a_b_newline : list Z := [97; 44; 98; 10].
Definition doc_a_tab_tab_b : list Z := [97; 9; 9; 98].

Definition only_empty_field : ValidSymbols :=
  fun t => match t with EMPTY_FIELD => true | ERROR_SENTINEL => false end.

Definition all_symbols : ValidSymbols := fun _ => true.

(** ** Calls in sequence *)

(** The verdict as a function of the valid symbols and of the look-ahead. *)
Definition decision (valid_symbols : ValidSymbols) (c : Z) : bool :=
  negb (valid_symbols ERROR_SENTINEL) && valid_symbols EMPTY_FIELD
  && (is_separator c || is_newline c).

(** The scan calls that a parser makes one after the other on the same
    lexer, each through the entry point of some dialect, with some payload
    and some valid symbols; the verdicts come back in the order of the
    calls. *)
Fixpoint scan_each (calls : list (Dialect * void_ptr * ValidSymbols))
  : Lex (list bool) :=
  match calls with
  | [] => ret []
  | (d, payload, valid_symbols) :: rest =>
      (b <- external_scanner_scan d payload valid_symbols ;;
       bs <- scan_each rest ;;
       ret (b :: bs))%lex
  end.

(** Kinds of accesses, for counting them in a trace. *)
Definition is_mark (e : LexerEvent) : bool :=
  match e with EvMarkEnd _ => true | _ => false end.
Definition is_read (e : LexerEvent) : bool :=
  match e with EvLookahead _ => true | _ => false end.
Definition is_write (e : LexerEvent) : bool :=
  match e with EvResultSymbol _ => true | _ => false end.

Definition count (p : LexerEvent -> bool) (tr : list LexerEvent) : nat :=
  length (filter p tr).

(** The lifecycle functions each grammar is linked with. *)
Definition external_scanner_create (d : Dialect)
  : Memory -> void_ptr * Memory :=
  match d with
  | Csv => tree_sitter_csv_external_scanner_create
  | Psv => tree_sitter_psv_external_scanner_create
  | Tsv => tree_sitter_tsv_external_scanner_create
  end.

Definition external_scanner_destroy (d : Dialect)
  : void_ptr -> Memory -> Memory :=
  match d with
  | Csv => tree_sitter_csv_external_scanner_destroy
  | Psv => tree_sitter_psv_external_scanner_destroy
  | Tsv => tree_sitter_tsv_external_scanner_destroy
  end.

Definition external_scanner_serialize (d : Dialect)
  : void_ptr -> Z -> Memory -> Z * Memory :=
  match d with
  | Csv => tree_sitter_csv_external_scanner_serialize
  | Psv => tree_sitter_psv_external_scanner_serialize
  | Tsv => tree_sitter_tsv_external_scanner_serialize
  end.

Definition external_scanner_deserialize (d : Dialect)
  : void_ptr -> Z -> Z -> Memory -> Memory :=
  match d with
  | Csv => tree_sitter_csv_external_scanner_deserialize
  | Psv => tree_sitter_psv_external_scanner_deserialize
  | Tsv => tree_sitter_tsv_external_scanner_deserialize
  end.

(** A call of a lifecycle function with its arguments, and what it
    returned. *)
Inductive LifecycleCall : Type :=
| CallCreate (d : Dialect)
| CallDestroy (d : Dialect) (payload : void_ptr)
| CallSerialize (d : Dialect) (payload : void_ptr) (buffer : Z)
| CallDeserialize (d : Dialect) (payload : void_ptr) (buffer length : Z).

Inductive Returned : Type :=
| RetHandle (payload : void_ptr)
| RetVoid
| RetLength (n : Z).

Definition lifecycle_call (c : LifecycleCall) (m : Memory)
  : Returned * Memory :=
  match c with
  | CallCreate d =>
      let '(p, m') := external_scanner_create d m in (RetHandle p, m')
  | CallDestroy d payload =>
      (RetVoid, external_scanner_destroy d payload m)
  | CallSerialize d payload buffer =>
      let '(n, m') := external_scanner_serialize d payload buffer m in
      (RetLength n, m')
  | CallDeserialize d payload buffer length =>
      (RetVoid, external_scanner_deserialize d payload buffer length m)
  end.

(** Calls made one after the other, each on the memory the one before left. *)
Fixpoint lifecycle_calls (cs : list LifecycleCall) (m : Memory)
  : list Returned * Memory :=
  match cs with
  | [] => ([], m)
  | c :: rest =>
      let '(r, m1) := lifecycle_call c m in
      let '(rs, m2) := lifecycle_calls rest m1 in
      (r :: rs, m2)
  end.

(** ** The Node binding *)

(** [bindings/node/binding.cc].  The values of the host are those the file
    creates and stores: externals, which wrap a pointer and may carry a type
    tag, and objects.  An object has its own data properties, kept in the
    order they were added, each one writable or not, and is extensible or
    not; a frozen object is not extensible and none of its properties is
    writable.  Accessor properties, proxies and properties inherited from a
    prototype are not modelled.  The three functions that return the compiled
    grammars are declared [extern] and enter [Init] as the pointers they
    return. *)
Module Binding.

Import String.
Local Open Scope string_scope.

(** [napi_type_tag]: two [uint64_t]. *)
Record napi_type_tag : Type := mkTag { lower : Z; upper : Z }.

Definition LANGUAGE_TYPE_TAG : napi_type_tag :=
  {| lower := 0x8AF2E5212AD58ABF%Z; upper := 0xD5006CAD83ABBA16%Z |}.

Local Set Warnings "-register-all".

(** A property is held as its name, whether it is writable, and its value. *)
Inductive napi_value : Type :=
| External (data : Z) (tag : option napi_type_tag)
| Object (is_extensible : bool)
         (properties : list (string * (bool * napi_value))).

Definition Properties : Type := list (string * (bool * napi_value)).

(** [Napi::Object]: a handle on an object of the host. *)
Record napi_object : Type := mkObject {
  extensible : bool;
  own : Properties
}.

(** The object as a value, as it is when it is stored in a property. *)
Definition value_of (o : napi_object) : napi_value :=
  Object (extensible o) (own o).

(** [Napi::External<TSLanguage>::New(env, data)] *)
Definition External_New (data : Z) : napi_value := External data None.

(** [value.TypeTag(&tag)]: tags a value that has no tag yet. *)
Definition TypeTag (tag : napi_type_tag) (v : napi_value) : napi_value :=
  match v with
  | External data None => External data (Some tag)
  | _ => v
  end.

(** [Napi::Object::New(env)]: extensible, without own properties. *)
Definition Object_New : napi_object := {| extensible := true; own := [] |}.

(** The assignment on the list of own properties: the value of a writable
    property is replaced, a property that is not writable stays, and a name
    that is missing is added after the others, writable, when the object is
    extensible, and not added when it is not. *)
Fixpoint store (key : string) (v : napi_value) (ext : bool)
  (props : Properties) : Properties :=
  match props with
  | [] => if ext then [(key, (true, v))] else []
  | (k, (w, x)) :: rest =>
      if String.eqb k key then (k, (w, if w then v else x)) :: rest
      else (k, (w, x)) :: store key v ext rest
  end.

(** [object[key] = v].  Where the assignment cannot store, it stores nothing
    and reports nothing. *)
Definition set_property (key : string) (v : napi_value) (o : napi_object)
  : napi_object :=
  {| extensible := extensible o;
     own := store key v (extensible o) (own o) |}.

Fixpoint find (key : string) (props : Properties)
  : option (bool * napi_value) :=
  match props with
  | [] => None
  | (k, p) :: rest => if String.eqb k key then Some p else find key rest
  end.

(** [object[key]], [None] standing for [undefined]. *)
Definition get_property (key : string) (o : napi_object)
  : option napi_value :=
  option_map snd (find key (own o)).



(** [Init(env, exports)]; [env], the handle of the host that every call
    passes along, is left out. *)
Definition Init (tree_sitter_csv tree_sitter_psv tree_sitter_tsv : Z)
  (exports : napi_object) : napi_object :=
  let csv_language := External_New tree_sitter_csv in
  let csv_language := TypeTag LANGUAGE_TYPE_TAG csv_language in
  let csv_obj := Object_New in
  let csv_obj := set_property "language" csv_language csv_obj in
  let exports := set_property "csv" (value_of csv_obj) exports in
  let psv_language := External_New tree_sitter_psv in
  let psv_language := TypeTag LANGUAGE_TYPE_TAG psv_language in
  let psv_obj := Object_New in
  let psv_obj := set_property "language" psv_language psv_obj in
  let exports := set_property "psv" (value_of psv_obj) exports in
  let tsv_language := External_New tree_sitter_tsv in
  let tsv_language := TypeTag LANGUAGE_TYPE_TAG tsv_language in
  let tsv_obj := Object_New in
  let tsv_obj := set_property "language" tsv_language tsv_obj in
  let exports := set_property "tsv" (value_of tsv_obj) exports in
  exports.

(** What [Init] assigns for a grammar: a new object whose [language] is the
    tagged external of the grammar's pointer. *)
Definition language_object (language : Z) : napi_value :=
  Object true [("language", (true, External language (Some LANGUAGE_TYPE_TAG)))].

End Binding.

Example scan_between_commas :
  tree_sitter_csv_external_scanner_scan NULL only_empty_field
    (lexer_at doc_a_comma_comma_b 2)
  = (true,
     mkLexer 44 0 doc_a_comma_comma_b 2 (Some 2%nat),
     [EvMarkEnd 2; EvLookahead 44; EvResultSymbol 0]).
Proof. reflexivity. Qed.

Example scan_inside_field :
  tree_sitter_csv_external_scanner_scan NULL only_empty_field
    (lexer_at doc_a_comma_comma_b 3)
  = (false,
     mkLexer 98 0 doc_a_comma_comma_b 3 (Some 3%nat),
     [EvMarkEnd 3; EvLookahead 98; EvLookahead 98]).
Proof. reflexivity. Qed.

Example scan_between_tabs :
  tree_sitter_tsv_external_scanner_scan NULL only_empty_field
    (lexer_at doc_a_tab_tab_b 2)
  = (true,
     mkLexer 9 0 doc_a_tab_tab_b 2 (Some 2%nat),
     [EvMarkEnd 2; EvLookahead 9; EvResultSymbol 0]).
Proof. reflexivity. Qed.

Example scan_before_line_feed :
  tree_sitter_csv_external_scanner_scan NULL only_empty_field
    (lexer_at doc_a_b_newline 3)
  = (true,
     mkLexer 10 0 doc_a_b_newline 3 (Some 3%nat),
     [EvMarkEnd 3; EvLookahead 10; EvLookahead 10; EvResultSymbol 0]).
Proof. reflexivity. Qed.

Example scan_in_recovery :
  tree_sitter_csv_external_scanner_scan NULL all_symbols
    (lexer_at doc_a_comma_comma_b 2)
  = (false, lexer_at doc_a_comma_comma_b 2, []).
Proof. reflexivity. Qed.

(** ** The classifiers *)

Lemma is_separator_true_iff (c : Z) :
  is_separator c = true <-> c = 44 \/ c = 9 \/ c = 124.
Proof.
  unfold is_separator.
  change (chr ","%char) with 44.
  change (chr "009"%char) with 9.
  change (chr "|"%char) with 124.
  rewrite !orb_true_iff, !Z.eqb_eq. tauto.
Qed.

Lemma is_newline_true_iff (c : Z) :
  is_newline c = true <-> c = 10 \/ c = 13.
Proof.
  unfold is_newline.
  change (chr "010"%char) with 10.
  change (chr "013"%char) with 13.
  rewrite !orb_true_iff, !Z.eqb_eq. tauto.
Qed.

Lemma separator_is_not_newline (c : Z) :
  is_separator c = true -> is_newline c = false.
Proof.
  rewrite is_separator_true_iff. intros H.
  destruct (is_newline c) eqn:E; [|reflexivity].
  apply is_newline_true_iff in E. lia.
Qed.

(** ** The runs of [scan] *)

(** The four ways through the function, in closed form. *)
Lemma scan_equation (payload : void_ptr) (vs : ValidSymbols) (l : TSLexer) :
  tree_sitter_csv_external_scanner_scan payload vs l =
  if vs ERROR_SENTINEL then (false, l, [])
  else if negb (vs EMPTY_FIELD) then (false, l, [])
  else if is_separator (lookahead l) then
    (true, emitted (symbol_of EMPTY_FIELD) (marked l),
     [EvMarkEnd (position l); EvLookahead (lookahead l);
      EvResultSymbol (symbol_of EMPTY_FIELD)])
  else if is_newline (lookahead l) then
    (true, emitted (symbol_of EMPTY_FIELD) (marked l),
     [EvMarkEnd (position l); EvLookahead (lookahead l);
      EvLookahead (lookahead l); EvResultSymbol (symbol_of EMPTY_FIELD)])
  else
    (false, marked l,
     [EvMarkEnd (position l); EvLookahead (lookahead l);
      EvLookahead (lookahead l)]).
Proof.
  unfold tree_sitter_csv_external_scanner_scan.
  destruct (vs ERROR_SENTINEL); [reflexivity|].
  destruct (vs EMPTY_FIELD); [|reflexivity].
  cbn [negb]. unfold bind, mark_end, get_lookahead. cbn.
  destruct (is_separator (lookahead l)); [reflexivity|].
  cbn. destruct (is_newline (lookahead l)); reflexivity.
Qed.

(** Split a goal about [scan] into the ways through the function. *)
Ltac scan_cases payload vs l :=
  rewrite ?(scan_equation payload vs l);
  destruct (vs ERROR_SENTINEL) eqn:Hsentinel;
  [| destruct (vs EMPTY_FIELD) eqn:Hempty;
     [ destruct (is_separator (lookahead l)) eqn:Hsep;
       [| destruct (is_newline (lookahead l)) eqn:Hnl ] |] ];
  cbn [negb verdict lexer_after trace fst snd].

Lemma lookahead_at_eof (l : TSLexer) :
  lexer_ok l -> eof l = true -> lookahead l = 0.
Proof.
  unfold lexer_ok, eof, code_point_at. intros Hok Heof.
  rewrite Hok. apply nth_overflow. apply Nat.leb_le. exact Heof.
Qed.

Lemma lookaheads_marked_sound (start : nat) (tr : list LexerEvent) :
  forall seen,
    lookaheads_marked start seen tr = true ->
    forall pre c post,
      tr = pre ++ EvLookahead c :: post ->
      seen = true \/ In (EvMarkEnd start) pre.
Proof.
  induction tr as [|e tr IH]; intros seen Hchk pre c post Heq.
  - destruct pre; discriminate.
  - destruct pre as [|e' pre]; cbn in Heq; injection Heq as He Htr.
    + subst e. cbn in Hchk. apply andb_true_iff in Hchk. tauto.
    + subst e'. destruct e as [p| | |]; cbn in Hchk.
      * destruct (IH _ Hchk _ _ _ Htr) as [Hseen|Hin].
        -- apply orb_true_iff in Hseen. destruct Hseen as [Hseen|Hp].
           ++ left; exact Hseen.
           ++ apply Nat.eqb_eq in Hp. subst p. right; left; reflexivity.
        -- right; right; exact Hin.
      * apply andb_true_iff in Hchk. tauto.
      * destruct (IH _ Hchk _ _ _ Htr); [tauto | right; right; assumption].
      * destruct (IH _ Hchk _ _ _ Htr); [tauto | right; right; assumption].
Qed.

Lemma lookaheads_marked_correct (start : nat) (tr : list LexerEvent) :
  lookaheads_marked start false tr = true -> marked_before_lookahead start tr.
Proof.
  intros Hchk pre c post Heq.
  destruct (lookaheads_marked_sound start tr false Hchk pre c post Heq);
    [discriminate | assumption].
Qed.

(** ** The decision of [scan] *)

Section Decision.

Variable payload : void_ptr.
Variable valid_symbols : ValidSymbols.
Variable lexer : TSLexer.

(** C1.  [scan] succeeds and emits [EMPTY_FIELD] exactly when the error
    sentinel is not valid, the empty field is valid and the look-ahead code
    point is a separator or a newline character.  In every other case it
    returns false and leaves the result symbol as it found it; the end of
    the input, where the look-ahead holds no code point, is such a case. *)
Theorem scan_emits_empty_field_iff :
  let run := tree_sitter_csv_external_scanner_scan payload valid_symbols lexer in
  (verdict run = true /\
   result_symbol (lexer_after run) = symbol_of EMPTY_FIELD
   <->
   valid_symbols ERROR_SENTINEL = false /\
   valid_symbols EMPTY_FIELD = true /\
   (is_separator (lookahead lexer) = true \/
    is_newline (lookahead lexer) = true))
  /\
  (verdict run = false /\
   result_symbol (lexer_after run) = result_symbol lexer
   <->
   ~ (valid_symbols ERROR_SENTINEL = false /\
      valid_symbols EMPTY_FIELD = true /\
      (is_separator (lookahead lexer) = true \/
       is_newline (lookahead lexer) = true)))
  /\
  (lexer_ok lexer -> eof lexer = true -> verdict run = false).
Proof.
  intros run; subst run.
  split; [|split].
  - scan_cases payload valid_symbols lexer; cbn; intuition congruence.
  - scan_cases payload valid_symbols lexer; cbn; intuition congruence.
  - intros Hok Heof. pose proof (lookahead_at_eof lexer Hok Heof) as H0.
    rewrite scan_equation, H0.
    destruct (valid_symbols ERROR_SENTINEL); [reflexivity|].
    destruct (valid_symbols EMPTY_FIELD); reflexivity.
Qed.

(** C2.  When the error sentinel is valid, [scan] returns false, whatever
    else is valid and whatever the look-ahead is; it does not touch the
    lexer at all. *)
Theorem scan_declines_in_error_recovery :
  valid_symbols ERROR_SENTINEL = true ->
  tree_sitter_csv_external_scanner_scan payload valid_symbols lexer
  = (false, lexer, []).
Proof.
  intros Hsentinel. rewrite scan_equation, Hsentinel. reflexivity.
Qed.

(** C3.  With the empty field valid and the error sentinel not, [scan] at
    the end of the input produces no token: it returns false and stores no
    result symbol. *)
Theorem scan_no_token_at_end_of_input :
  let run := tree_sitter_csv_external_scanner_scan payload valid_symbols lexer in
  valid_symbols EMPTY_FIELD = true ->
  valid_symbols ERROR_SENTINEL = false ->
  lexer_ok lexer ->
  eof lexer = true ->
  verdict run = false /\
  result_symbol (lexer_after run) = result_symbol lexer /\
  (forall s, ~ In (EvResultSymbol s) (trace run)).
Proof.
  intros run Hempty Hsentinel Hok Heof; subst run.
  pose proof (lookahead_at_eof lexer Hok Heof) as H0.
  rewrite scan_equation, Hsentinel, Hempty, H0. cbn.
  repeat split. intros s [H|[H|[H|[]]]]; discriminate.
Qed.

End Decision.

Lemma scan_declines_in_error_recovery_witness :
  all_symbols ERROR_SENTINEL = true /\
  tree_sitter_csv_external_scanner_scan NULL all_symbols
    (lexer_at doc_a_comma_comma_b 2)
  = (false, lexer_at doc_a_comma_comma_b 2, []).
Proof.
  split; [reflexivity|].
  apply (scan_declines_in_error_recovery NULL all_symbols
           (lexer_at doc_a_comma_comma_b 2)).
  reflexivity.
Defined.

Lemma scan_no_token_at_end_of_input_witness :
  eof (lexer_at doc_a_b_newline 4) = true /\
  verdict (tree_sitter_csv_external_scanner_scan NULL only_empty_field
             (lexer_at doc_a_b_newline 4)) = false.
Proof.
  split; [reflexivity|].
  apply (scan_no_token_at_end_of_input NULL only_empty_field
           (lexer_at doc_a_b_newline 4));
    reflexivity.
Defined.

(** ** A trailing separator at the end of the input *)

(** C4.  The comments of the scanner count a separator followed by the end
    of the input among the empty fields it detects, with [a,b,] as their
    example.  The code does not: after the trailing comma of [a,b,], where
    the look-ahead is the end of the input, with the empty field valid and
    the error sentinel not, [scan] marks the end of the token, reads the
    look-ahead twice and returns false, so no [EMPTY_FIELD] token is
    emitted there. *)
Lemma trailing_comma_at_eof_emits_nothing :
  only_empty_field EMPTY_FIELD = true /\
  only_empty_field ERROR_SENTINEL = false /\
  eof (lexer_at doc_a_b_comma 4) = true /\
  tree_sitter_csv_external_scanner_scan NULL only_empty_field
    (lexer_at doc_a_b_comma 4)
  = (false, marked (lexer_at doc_a_b_comma 4),
     [EvMarkEnd 4; EvLookahead 0; EvLookahead 0]) /\
  ~ (verdict (tree_sitter_csv_external_scanner_scan NULL only_empty_field
                (lexer_at doc_a_b_comma 4)) = true /\
     result_symbol
       (lexer_after (tree_sitter_csv_external_scanner_scan NULL
                       only_empty_field (lexer_at doc_a_b_comma 4)))
     = symbol_of EMPTY_FIELD).
Proof.
  repeat split. intros [H _]. discriminate H.
Qed.

(** ** What [scan] does to the cursor *)

Section Cursor.

Variable payload : void_ptr.
Variable valid_symbols : ValidSymbols.
Variable lexer : TSLexer.

(** C5.  In every call of [scan] the end of the token is marked at the
    current position before the look-ahead is read for the first time, so a
    call that reads the look-ahead ends with the mark at that position, and
    the cursor is never advanced: position, document and look-ahead are the
    same after the call, whether it succeeds or fails, and a token that
    [scan] produces ends where it starts, so it has width zero. *)
Theorem scan_consumes_nothing :
  let run := tree_sitter_csv_external_scanner_scan payload valid_symbols lexer in
  marked_before_lookahead (position lexer) (trace run) /\
  never_advances (trace run) /\
  position (lexer_after run) = position lexer /\
  input (lexer_after run) = input lexer /\
  lookahead (lexer_after run) = lookahead lexer /\
  (forall c, In (EvLookahead c) (trace run) ->
   token_end (lexer_after run) = Some (position lexer)) /\
  (verdict run = true ->
   token_end (lexer_after run) = Some (position lexer) /\
   token_width (position lexer) (lexer_after run) = 0%nat).
Proof.
  intros run; subst run.
  assert (Hwidth : forall s,
             token_width (position lexer)
               (emitted s (marked lexer)) = 0%nat).
  { intros s. unfold token_width. cbn. apply Nat.sub_diag. }
  scan_cases payload valid_symbols lexer;
    (split; [apply lookaheads_marked_correct; cbn;
             rewrite ?Nat.eqb_refl; reflexivity|]);
    (split; [intros skip Hin; cbn in Hin; intuition discriminate|]);
    do 3 (split; [reflexivity|]);
    (split; [intros c Hin; try contradiction Hin; reflexivity|]);
    intros Htrue; try discriminate Htrue;
    (split; [reflexivity | apply Hwidth]).
Qed.

(** C10.  When the error sentinel is not valid and the empty field is,
    [scan] calls [mark_end] first and reads the look-ahead after it, so
    the end of the token is set to the current position also in a call that
    returns false.  The calls that make no access to the lexer are exactly
    those that fail one of the two checks on the valid symbols; they return
    false and, unless the mark already stood at the current position, they
    are the only calls that leave the lexer as it was. *)
Theorem scan_marks_end_before_it_declines :
  let run := tree_sitter_csv_external_scanner_scan payload valid_symbols lexer in
  (valid_symbols ERROR_SENTINEL = false ->
   valid_symbols EMPTY_FIELD = true ->
   (exists rest,
      trace run
      = EvMarkEnd (position lexer) :: EvLookahead (lookahead lexer) :: rest)
   /\ token_end (lexer_after run) = Some (position lexer)
   /\ (verdict run = false -> lexer_after run = marked lexer))
  /\
  (trace run = [] <->
   valid_symbols ERROR_SENTINEL = true \/ valid_symbols EMPTY_FIELD = false)
  /\
  (trace run = [] -> verdict run = false /\ lexer_after run = lexer)
  /\
  (token_end lexer <> Some (position lexer) ->
   (lexer_after run = lexer <->
    valid_symbols ERROR_SENTINEL = true \/ valid_symbols EMPTY_FIELD = false)).
Proof.
  intros run; subst run.
  split; [|split; [|split]].
  - intros Hs He. rewrite scan_equation, Hs, He. cbn [negb].
    destruct (is_separator (lookahead lexer));
      [| destruct (is_newline (lookahead lexer))];
      cbn [verdict lexer_after trace fst snd];
      (split; [eexists; reflexivity|]);
      (split; [reflexivity|]);
      intros Hv; try discriminate Hv; reflexivity.
  - scan_cases payload valid_symbols lexer;
      (split; [intros Ht; try discriminate Ht; auto
              | intros [H|H]; try discriminate H; reflexivity]).
  - scan_cases payload valid_symbols lexer;
      intros Ht; try discriminate Ht; split; reflexivity.
  - intros Hend.
    scan_cases payload valid_symbols lexer;
      (split; [intros Hsame | intros [H|H]; try discriminate H; reflexivity]);
      auto;
      exfalso; apply Hend; rewrite <- Hsame at 1; reflexivity.
Qed.

End Cursor.

(** ** Classifiers and dialects *)

(** C6.  [is_separator c] holds exactly for comma (44), horizontal tab (9)
    and vertical bar (124); [is_newline c] holds exactly for line feed (10)
    and carriage return (13).  Both give an answer for every code point, and
    the scan function of each of the three dialects decides with these same
    two tests. *)
Theorem classifiers_characterised (c : Z) :
  (is_separator c = true <-> c = 44 \/ c = 9 \/ c = 124) /\
  (is_newline c = true <-> c = 10 \/ c = 13) /\
  (is_separator c = false <-> c <> 44 /\ c <> 9 /\ c <> 124) /\
  (is_newline c = false <-> c <> 10 /\ c <> 13) /\
  (forall (d : Dialect) (payload : void_ptr) (valid_symbols : ValidSymbols)
          (lexer : TSLexer),
      verdict (external_scanner_scan d payload valid_symbols lexer)
      = negb (valid_symbols ERROR_SENTINEL) && valid_symbols EMPTY_FIELD
        && (is_separator (lookahead lexer) || is_newline (lookahead lexer))).
Proof.
  pose proof (is_separator_true_iff c) as Hcomma.
  pose proof (is_newline_true_iff c) as Hfeed.
  split; [exact Hcomma|]. split; [exact Hfeed|].
  split; [|split].
  - rewrite <- not_true_iff_false, Hcomma. lia.
  - rewrite <- not_true_iff_false, Hfeed. lia.
  - intros d payload valid_symbols lexer.
    assert (Hcsv :
      verdict (tree_sitter_csv_external_scanner_scan payload valid_symbols lexer)
      = negb (valid_symbols ERROR_SENTINEL) && valid_symbols EMPTY_FIELD
        && (is_separator (lookahead lexer) || is_newline (lookahead lexer))).
    { scan_cases payload valid_symbols lexer; reflexivity. }
    destruct d; exact Hcsv.
Qed.

(** C7.  The verdict of [scan] and, on success, the token kind are determined
    by the look-ahead code point and by which symbols are valid: two calls
    that agree on these return the same verdict and, when they succeed, both
    emit [EMPTY_FIELD]; at the same position they make the same accesses. *)
Theorem scan_deterministic
  (payload1 payload2 : void_ptr) (valid1 valid2 : ValidSymbols)
  (lexer1 lexer2 : TSLexer) :
  (forall t, valid1 t = valid2 t) ->
  lookahead lexer1 = lookahead lexer2 ->
  verdict (tree_sitter_csv_external_scanner_scan payload1 valid1 lexer1)
  = verdict (tree_sitter_csv_external_scanner_scan payload2 valid2 lexer2)
  /\
  (verdict (tree_sitter_csv_external_scanner_scan payload1 valid1 lexer1) = true ->
   result_symbol
     (lexer_after (tree_sitter_csv_external_scanner_scan payload1 valid1 lexer1))
   = symbol_of EMPTY_FIELD /\
   result_symbol
     (lexer_after (tree_sitter_csv_external_scanner_scan payload2 valid2 lexer2))
   = symbol_of EMPTY_FIELD)
  /\
  (position lexer1 = position lexer2 ->
   trace (tree_sitter_csv_external_scanner_scan payload1 valid1 lexer1)
   = trace (tree_sitter_csv_external_scanner_scan payload2 valid2 lexer2)).
Proof.
  intros Hvalid Hlook.
  rewrite (scan_equation payload1 valid1 lexer1).
  rewrite (scan_equation payload2 valid2 lexer2).
  rewrite <- (Hvalid ERROR_SENTINEL), <- (Hvalid EMPTY_FIELD), <- Hlook.
  destruct (valid1 ERROR_SENTINEL); [|destruct (valid1 EMPTY_FIELD)];
    cbn [negb];
    [| destruct (is_separator (lookahead lexer1));
       [| destruct (is_newline (lookahead lexer1))] |];
    cbn [verdict lexer_after trace fst snd];
    (split; [reflexivity|]);
    (split; [intros H; try discriminate H; split; reflexivity|]);
    intros Hpos; rewrite ?Hpos; reflexivity.
Qed.

Lemma scan_deterministic_witness :
  verdict (tree_sitter_csv_external_scanner_scan NULL only_empty_field
             (lexer_at doc_a_comma_comma_b 2))
  = verdict (tree_sitter_csv_external_scanner_scan 4096 only_empty_field
               (lexer_at doc_a_b_comma 1)).
Proof.
  apply (scan_deterministic NULL 4096 only_empty_field only_empty_field
           (lexer_at doc_a_comma_comma_b 2) (lexer_at doc_a_b_comma 1)).
  - intros t. reflexivity.
  - reflexivity.
Defined.

(** C8.  The entry points of the pipe and of the tab dialect return what the
    comma dialect's functions return, for every payload, lexer, set of valid
    symbols, buffer and memory: scan, create, destroy, serialize and
    deserialize. *)
Theorem dialect_entry_points_agree
  (payload : void_ptr) (valid_symbols : ValidSymbols) (lexer : TSLexer)
  (buffer length : Z) (m : Memory) :
  (tree_sitter_psv_external_scanner_scan payload valid_symbols lexer
   = tree_sitter_csv_external_scanner_scan payload valid_symbols lexer /\
   tree_sitter_tsv_external_scanner_scan payload valid_symbols lexer
   = tree_sitter_csv_external_scanner_scan payload valid_symbols lexer)
  /\
  (tree_sitter_psv_external_scanner_create m
   = tree_sitter_csv_external_scanner_create m /\
   tree_sitter_tsv_external_scanner_create m
   = tree_sitter_csv_external_scanner_create m)
  /\
  (tree_sitter_psv_external_scanner_destroy payload m
   = tree_sitter_csv_external_scanner_destroy payload m /\
   tree_sitter_tsv_external_scanner_destroy payload m
   = tree_sitter_csv_external_scanner_destroy payload m)
  /\
  (tree_sitter_psv_external_scanner_serialize payload buffer m
   = tree_sitter_csv_external_scanner_serialize payload buffer m /\
   tree_sitter_tsv_external_scanner_serialize payload buffer m
   = tree_sitter_csv_external_scanner_serialize payload buffer m)
  /\
  (tree_sitter_psv_external_scanner_deserialize payload buffer length m
   = tree_sitter_csv_external_scanner_deserialize payload buffer length m /\
   tree_sitter_tsv_external_scanner_deserialize payload buffer length m
   = tree_sitter_csv_external_scanner_deserialize payload buffer length m).
Proof.
  unfold tree_sitter_psv_external_scanner_scan,
    tree_sitter_tsv_external_scanner_scan,
    tree_sitter_psv_external_scanner_create,
    tree_sitter_tsv_external_scanner_create,
    tree_sitter_psv_external_scanner_destroy,
    tree_sitter_tsv_external_scanner_destroy,
    tree_sitter_psv_external_scanner_serialize,
    tree_sitter_tsv_external_scanner_serialize,
    tree_sitter_psv_external_scanner_deserialize,
    tree_sitter_tsv_external_scanner_deserialize.
  repeat split.
Qed.

(** ** The stateless handle *)

(** C9.  [serialize] returns length zero and writes no byte, so the
    serialized representation is empty; [deserialize] leaves the memory, and
    with it whatever the handle stands for, as it was, for every buffer and
    every length, the empty one included; hence restoring from what
    [serialize] produced gives back the state it was taken from.  The handle
    that [create] returns is [NULL]. *)
Theorem serialize_deserialize_stateless
  (payload : void_ptr) (buffer length : Z) (m : Memory) :
  fst (tree_sitter_csv_external_scanner_serialize payload buffer m) = 0 /\
  snd (tree_sitter_csv_external_scanner_serialize payload buffer m) = m /\
  serialized buffer (tree_sitter_csv_external_scanner_serialize payload buffer m)
  = [] /\
  tree_sitter_csv_external_scanner_deserialize payload buffer length m = m /\
  tree_sitter_csv_external_scanner_deserialize payload buffer 0 m = m /\
  tree_sitter_csv_external_scanner_deserialize payload buffer
    (fst (tree_sitter_csv_external_scanner_serialize payload buffer m))
    (snd (tree_sitter_csv_external_scanner_serialize payload buffer m))
  = m /\
  tree_sitter_csv_external_scanner_create m = (NULL, m).
Proof.
  unfold tree_sitter_csv_external_scanner_serialize,
    tree_sitter_csv_external_scanner_deserialize,
    tree_sitter_csv_external_scanner_create, serialized.
  cbn. repeat split.
Qed.

(** ** Further properties of [scan] *)

Lemma dialect_scan_is_csv (d : Dialect) (payload : void_ptr)
  (valid_symbols : ValidSymbols) (lexer : TSLexer) :
  external_scanner_scan d payload valid_symbols lexer
  = tree_sitter_csv_external_scanner_scan payload valid_symbols lexer.
Proof. destruct d; reflexivity. Qed.

Lemma scan_verdict_decision (payload : void_ptr) (valid_symbols : ValidSymbols)
  (lexer : TSLexer) :
  verdict (tree_sitter_csv_external_scanner_scan payload valid_symbols lexer)
  = decision valid_symbols (lookahead lexer).
Proof.
  unfold decision. scan_cases payload valid_symbols lexer; reflexivity.
Qed.

Lemma scan_frame (payload : void_ptr) (valid_symbols : ValidSymbols)
  (lexer : TSLexer) :
  let run := tree_sitter_csv_external_scanner_scan payload valid_symbols lexer in
  position (lexer_after run) = position lexer /\
  input (lexer_after run) = input lexer /\
  lookahead (lexer_after run) = lookahead lexer /\
  never_advances (trace run).
Proof.
  intros run; subst run.
  scan_cases payload valid_symbols lexer;
    do 3 (split; [reflexivity|]);
    intros skip Hin; cbn in Hin; intuition discriminate.
Qed.

Lemma never_advances_app (t1 t2 : list LexerEvent) :
  never_advances t1 -> never_advances t2 -> never_advances (t1 ++ t2).
Proof.
  intros H1 H2 skip Hin. apply in_app_or in Hin.
  destruct Hin as [Hin|Hin]; [exact (H1 skip Hin) | exact (H2 skip Hin)].
Qed.

Lemma scan_each_cons (d : Dialect) (payload : void_ptr)
  (valid_symbols : ValidSymbols)
  (rest : list (Dialect * void_ptr * ValidSymbols)) (lexer : TSLexer) :
  scan_each ((d, payload, valid_symbols) :: rest) lexer
  = (verdict (external_scanner_scan d payload valid_symbols lexer)
       :: verdict
            (scan_each rest
               (lexer_after (external_scanner_scan d payload valid_symbols lexer))),
     lexer_after
       (scan_each rest
          (lexer_after (external_scanner_scan d payload valid_symbols lexer))),
     trace (external_scanner_scan d payload valid_symbols lexer)
       ++ trace
            (scan_each rest
               (lexer_after (external_scanner_scan d payload valid_symbols lexer)))).
Proof.
  cbn [scan_each]. unfold bind, ret.
  destruct (external_scanner_scan d payload valid_symbols lexer) as [[b l1] t1].
  cbn [verdict lexer_after trace fst snd].
  destruct (scan_each rest l1) as [[bs l2] t2].
  cbn [verdict lexer_after trace fst snd].
  rewrite app_nil_r. reflexivity.
Qed.

(** X1.  Scanning again where a scan left the lexer, through any dialect's
    entry point and with any payload, repeats the first call: the same
    verdict, the same accesses, and the lexer stays as the first call left
    it. *)
Theorem scan_again_repeats
  (d d' : Dialect) (payload payload' : void_ptr)
  (valid_symbols : ValidSymbols) (lexer : TSLexer) :
  external_scanner_scan d' payload' valid_symbols
    (lexer_after (external_scanner_scan d payload valid_symbols lexer))
  = external_scanner_scan d payload valid_symbols lexer.
Proof.
  rewrite !dialect_scan_is_csv.
  rewrite (scan_equation payload valid_symbols lexer).
  destruct (valid_symbols ERROR_SENTINEL) eqn:Hs.
  { cbn [lexer_after fst snd]. rewrite scan_equation, Hs. reflexivity. }
  destruct (valid_symbols EMPTY_FIELD) eqn:He; cbn [negb].
  2:{ cbn [lexer_after fst snd]. rewrite scan_equation, Hs, He. reflexivity. }
  destruct (is_separator (lookahead lexer)) eqn:Hsep;
    [| destruct (is_newline (lookahead lexer)) eqn:Hnl];
    cbn [lexer_after fst snd]; rewrite scan_equation, Hs, He;
    cbn [negb emitted marked lexer_after mark_end set_result_symbol
         fst snd lookahead position];
    rewrite ?Hsep, ?Hnl; reflexivity.
Qed.

(** X2.  However many scan calls are made one after the other, through
    whichever entry points and with whichever payloads and valid symbols, the
    cursor stays where it was: position, document and look-ahead are those of
    the start, no call advances, a well-formed lexer stays well formed, and
    every call's verdict is the decision for its valid symbols at the
    look-ahead of the start. *)
Theorem scan_each_keeps_cursor
  (calls : list (Dialect * void_ptr * ValidSymbols)) (lexer : TSLexer) :
  let run := scan_each calls lexer in
  position (lexer_after run) = position lexer /\
  input (lexer_after run) = input lexer /\
  lookahead (lexer_after run) = lookahead lexer /\
  never_advances (trace run) /\
  verdict run = map (fun c => decision (snd c) (lookahead lexer)) calls /\
  (lexer_ok lexer -> lexer_ok (lexer_after run)).
Proof.
  cbv zeta. revert lexer.
  induction calls as [|[[d payload] valid_symbols] rest IH]; intros lexer.
  - cbn. repeat split; [intros skip []|tauto].
  - rewrite scan_each_cons. cbn [verdict lexer_after trace fst snd map].
    rewrite dialect_scan_is_csv.
    destruct (scan_frame payload valid_symbols lexer) as (Hp & Hi & Hl & Hn).
    cbv zeta in Hp, Hi, Hl, Hn.
    destruct (IH (lexer_after
                    (tree_sitter_csv_external_scanner_scan payload
                       valid_symbols lexer)))
      as (Hp' & Hi' & Hl' & Hn' & Hv' & Hok').
    rewrite Hp', Hi', Hl', Hv', Hp, Hi, Hl, scan_verdict_decision.
    do 3 (split; [reflexivity|]).
    split; [apply never_advances_app; assumption|].
    split; [reflexivity|].
    intros Hok. apply Hok'. unfold lexer_ok in *. rewrite Hp, Hi, Hl. exact Hok.
Qed.

(** X3.  The only symbol [scan] ever stores is [EMPTY_FIELD]: it is stored
    once, as the last access, in a call that returns true, and not at all in
    a call that returns false; so the result symbol after a call is the one
    before it or [EMPTY_FIELD], and never becomes [ERROR_SENTINEL]. *)
Theorem scan_stores_only_empty_field
  (payload : void_ptr) (valid_symbols : ValidSymbols) (lexer : TSLexer) :
  let run := tree_sitter_csv_external_scanner_scan payload valid_symbols lexer in
  (forall s, In (EvResultSymbol s) (trace run) -> s = symbol_of EMPTY_FIELD) /\
  count is_write (trace run) = (if verdict run then 1%nat else 0%nat) /\
  (verdict run = true ->
   exists accesses,
     trace run = accesses ++ [EvResultSymbol (symbol_of EMPTY_FIELD)]) /\
  result_symbol (lexer_after run)
  = (if verdict run then symbol_of EMPTY_FIELD else result_symbol lexer) /\
  (result_symbol lexer <> symbol_of ERROR_SENTINEL ->
   result_symbol (lexer_after run) <> symbol_of ERROR_SENTINEL).
Proof.
  intros run; subst run.
  scan_cases payload valid_symbols lexer;
    (split; [intros s Hin; cbn in Hin;
             repeat (destruct Hin as [Hin|Hin]; [try discriminate Hin|]);
             try contradiction Hin; injection Hin as <-; reflexivity|]);
    (split; [reflexivity|]);
    (split; [intros Hv; try discriminate Hv|]);
    try (split; [reflexivity|]);
    try (intros Hne; cbn; solve [exact Hne | discriminate]).
  - exists [EvMarkEnd (position lexer); EvLookahead (lookahead lexer)].
    reflexivity.
  - exists [EvMarkEnd (position lexer); EvLookahead (lookahead lexer);
            EvLookahead (lookahead lexer)].
    reflexivity.
Qed.

(** X4.  A call of [scan] makes at most four accesses to the lexer: at most
    one [mark_end], at most two reads of the look-ahead and at most one store
    of the result symbol; in front of a separator one read is enough, and the
    look-ahead that is read is always the one of the lexer. *)
Theorem scan_accesses_are_bounded
  (payload : void_ptr) (valid_symbols : ValidSymbols) (lexer : TSLexer) :
  let run := tree_sitter_csv_external_scanner_scan payload valid_symbols lexer in
  (length (trace run) <= 4)%nat /\
  (count is_mark (trace run) <= 1)%nat /\
  (count is_read (trace run) <= 2)%nat /\
  (count is_write (trace run) <= 1)%nat /\
  (is_separator (lookahead lexer) = true ->
   (count is_read (trace run) <= 1)%nat) /\
  (forall c, In (EvLookahead c) (trace run) -> c = lookahead lexer).
Proof.
  intros run; subst run.
  scan_cases payload valid_symbols lexer; unfold count; cbn;
    do 4 (split; [lia|]);
    (split; [intros H; try discriminate H; lia|]);
    intros c Hin;
    repeat (destruct Hin as [Hin|Hin];
            [try discriminate Hin; injection Hin as <-; reflexivity|]);
    contradiction Hin.
Qed.

(** X5.  No code point is both a separator and a newline, and every code
    point that either classifier accepts lies between 9 and 124, in ASCII. *)
Theorem triggers_are_disjoint_ascii (c : Z) :
  is_separator c && is_newline c = false /\
  (is_separator c || is_newline c = true -> 9 <= c <= 124) /\
  (c < 9 \/ 124 < c -> is_separator c = false /\ is_newline c = false).
Proof.
  pose proof (is_separator_true_iff c) as Hcomma.
  pose proof (is_newline_true_iff c) as Hfeed.
  destruct (is_separator c) eqn:Es; destruct (is_newline c) eqn:En; cbn;
    repeat split; try reflexivity; try lia; intros H; try discriminate H;
    try (destruct Hcomma as [Hc _]; specialize (Hc eq_refl));
    try (destruct Hfeed as [Hf _]; specialize (Hf eq_refl));
    try lia.
Qed.

(** X6.  In front of a code point below 9 or above 124, so in front of any
    code point outside ASCII and of any negative value, every dialect's
    [scan] returns false and leaves the result symbol alone. *)
Theorem scan_declines_outside_ascii
  (d : Dialect) (payload : void_ptr) (valid_symbols : ValidSymbols)
  (lexer : TSLexer) :
  lookahead lexer < 9 \/ 124 < lookahead lexer ->
  verdict (external_scanner_scan d payload valid_symbols lexer) = false /\
  result_symbol
    (lexer_after (external_scanner_scan d payload valid_symbols lexer))
  = result_symbol lexer.
Proof.
  intros Hout. rewrite dialect_scan_is_csv.
  assert (Hsep : is_separator (lookahead lexer) = false).
  { apply not_true_iff_false. rewrite is_separator_true_iff. lia. }
  assert (Hnl : is_newline (lookahead lexer) = false).
  { apply not_true_iff_false. rewrite is_newline_true_iff. lia. }
  rewrite scan_equation, Hsep, Hnl.
  destruct (valid_symbols ERROR_SENTINEL); [split; reflexivity|].
  destruct (valid_symbols EMPTY_FIELD); split; reflexivity.
Qed.

Lemma scan_declines_outside_ascii_witness :
  verdict (external_scanner_scan Tsv NULL only_empty_field
             (lexer_at [44; 233; 44] 1)) = false.
Proof.
  apply (scan_declines_outside_ascii Tsv NULL only_empty_field
           (lexer_at [44; 233; 44] 1)).
  right. reflexivity.
Defined.

(** ** Lifecycle calls in sequence *)

Lemma lifecycle_call_stateless (c : LifecycleCall) (m : Memory) :
  snd (lifecycle_call c m) = m /\
  (fst (lifecycle_call c m) = RetHandle NULL \/
   fst (lifecycle_call c m) = RetVoid \/
   fst (lifecycle_call c m) = RetLength 0).
Proof.
  destruct c as [d|d payload|d payload buffer|d payload buffer len];
    destruct d; cbn; auto.
Qed.

(** X7.  Whatever lifecycle functions are called, in whatever order and
    number, through whichever dialect and with whatever pointers and lengths,
    the memory after the calls is the memory before them; every handle that
    was created is [NULL] and every length that was reported is 0. *)
Theorem lifecycle_calls_stateless (cs : list LifecycleCall) (m : Memory) :
  snd (lifecycle_calls cs m) = m /\
  length (fst (lifecycle_calls cs m)) = length cs /\
  (forall p, In (RetHandle p) (fst (lifecycle_calls cs m)) -> p = NULL) /\
  (forall n, In (RetLength n) (fst (lifecycle_calls cs m)) -> n = 0).
Proof.
  induction cs as [|c cs IH].
  - cbn. repeat split; intros ? [].
  - cbn [lifecycle_calls].
    destruct (lifecycle_call_stateless c m) as [Hm Hr].
    destruct (lifecycle_call c m) as [r m1]. cbn [fst snd] in Hm, Hr.
    subst m1.
    destruct IH as (IHm & IHlen & IHp & IHn).
    destruct (lifecycle_calls cs m) as [rs m2]. cbn [fst snd] in *.
    split; [exact IHm|].
    split; [cbn [length]; f_equal; exact IHlen|].
    split.
    + intros p [Hin|Hin]; [|exact (IHp p Hin)].
      subst r. destruct Hr as [H|[H|H]];
        [injection H as <-; reflexivity | discriminate H | discriminate H].
    + intros n [Hin|Hin]; [|exact (IHn n Hin)].
      subst r. destruct Hr as [H|[H|H]];
        [discriminate H | discriminate H | injection H as <-; reflexivity].
Qed.

(** ** The exports of the Node binding *)

Module BindingFacts.

Import String.
Import Binding.
Local Open Scope string_scope.


Lemma find_store_other (key key' : string) (v : napi_value) (ext : bool)
  (props : Properties) :
  key <> key' -> find key' (store key v ext props) = find key' props.
Proof.
  intros Hne.
  induction props as [|[k [w x]] rest IH]; cbn.
  - destruct ext; cbn; [|reflexivity].
    destruct (String.eqb key key') eqn:E; [|reflexivity].
    apply String.eqb_eq in E. contradiction.
  - destruct (String.eqb k key) eqn:E; cbn.
    + apply String.eqb_eq in E. subst k.
      destruct (String.eqb key key') eqn:E'; [|reflexivity].
      apply String.eqb_eq in E'. contradiction.
    + destruct (String.eqb k key'); [reflexivity|exact IH].
Qed.


Lemma get_set_other (key key' : string) (v : napi_value) (o : napi_object) :
  key <> key' ->
  get_property key' (set_property key v o) = get_property key' o.
Proof.
  intros Hne. unfold get_property, set_property. cbn [own].
  rewrite find_store_other by exact Hne. reflexivity.
Qed.


(** An assignment that is repeated stores nothing new. *)
Lemma store_again (key : string) (v : napi_value) (ext : bool)
  (props : Properties) :
  store key v ext (store key v ext props) = store key v ext props.
Proof.
  induction props as [|[k [w x]] rest IH]; cbn.
  - destruct ext; cbn; [rewrite String.eqb_refl|]; reflexivity.
  - destruct (String.eqb k key) eqn:E; cbn; rewrite E.
    + destruct w; reflexivity.
    + f_equal. exact IH.
Qed.

(** An assignment that stores nothing new still stores nothing new after an
    assignment to another name. *)
Lemma store_settled_other (key key' : string) (v v' : napi_value) (ext : bool)
  (props : Properties) :
  key <> key' ->
  store key v ext props = props ->
  store key v ext (store key' v' ext props) = store key' v' ext props.
Proof.
  intros Hne.
  induction props as [|[k [w x]] rest IH]; cbn.
  - destruct ext; [discriminate|]. reflexivity.
  - destruct (String.eqb k key) eqn:E; intros H.
    + apply String.eqb_eq in E. subst k.
      destruct (String.eqb key key') eqn:E'.
      { apply String.eqb_eq in E'. contradiction. }
      cbn. rewrite String.eqb_refl.
      injection H as Hx. rewrite Hx. reflexivity.
    + injection H as Hrest.
      destruct (String.eqb k key') eqn:E'; cbn; rewrite E.
      * f_equal. exact Hrest.
      * f_equal. exact (IH Hrest).
Qed.

Lemma set_again (key : string) (v : napi_value) (o : napi_object) :
  set_property key v (set_property key v o) = set_property key v o.
Proof.
  unfold set_property. cbn [own extensible]. rewrite store_again. reflexivity.
Qed.

Lemma set_settled_other (key key' : string) (v v' : napi_value)
  (o : napi_object) :
  key <> key' ->
  set_property key v o = o ->
  set_property key v (set_property key' v' o) = set_property key' v' o.
Proof.
  intros Hne H. destruct o as [ext props].
  unfold set_property in *. cbn [own extensible] in *.
  injection H as H. rewrite store_settled_other by assumption. reflexivity.
Qed.


(** On frozen exports [Init] stores nothing, and a [csv] that is not
    writable keeps its value while [psv] and [tsv] are added. *)
Example Init_on_frozen_exports :
  Init 4096 8192 12288
    (mkObject false [("version", (false, External 7 None))])
  = mkObject false [("version", (false, External 7 None))].
Proof. reflexivity. Qed.

Example Init_on_read_only_csv :
  Init 4096 8192 12288 (mkObject true [("csv", (false, External 5 None))])
  = mkObject true
      [("csv", (false, External 5 None));
       ("psv", (true, language_object 8192));
       ("tsv", (true, language_object 12288))].
Proof. reflexivity. Qed.


Section Exports.

Variables tree_sitter_csv tree_sitter_psv tree_sitter_tsv : Z.
Variable exports : napi_object.


(** X9.  [Init] leaves every other property of the exports as it was: a key
    that is none of [csv], [psv] and [tsv] reads the same before and
    after. *)
Theorem Init_keeps_other_properties (key : string) :
  key <> "csv" -> key <> "psv" -> key <> "tsv" ->
  get_property key
    (Init tree_sitter_csv tree_sitter_psv tree_sitter_tsv exports)
  = get_property key exports.
Proof.
  intros Hc Hp Ht. unfold Init. cbn zeta.
  rewrite !get_set_other by congruence. reflexivity.
Qed.

(** X10.  Running [Init] on exports that [Init] has filled changes nothing:
    the three properties are replaced by equal values, in place. *)
Theorem Init_twice_is_Init :
  Init tree_sitter_csv tree_sitter_psv tree_sitter_tsv
    (Init tree_sitter_csv tree_sitter_psv tree_sitter_tsv exports)
  = Init tree_sitter_csv tree_sitter_psv tree_sitter_tsv exports.
Proof.
  unfold Init. cbn zeta.
  set (c := value_of
              (set_property "language"
                 (TypeTag LANGUAGE_TYPE_TAG (External_New tree_sitter_csv))
                 Object_New)).
  set (p := value_of
              (set_property "language"
                 (TypeTag LANGUAGE_TYPE_TAG (External_New tree_sitter_psv))
                 Object_New)).
  set (t := value_of
              (set_property "language"
                 (TypeTag LANGUAGE_TYPE_TAG (External_New tree_sitter_tsv))
                 Object_New)).
  assert (Hc : set_property "csv" c
                 (set_property "tsv" t
                    (set_property "psv" p (set_property "csv" c exports)))
               = set_property "tsv" t
                   (set_property "psv" p (set_property "csv" c exports))).
  { apply set_settled_other; [discriminate|].
    apply set_settled_other; [discriminate|].
    apply set_again. }
  rewrite Hc.
  assert (Hp : set_property "psv" p
                 (set_property "tsv" t
                    (set_property "psv" p (set_property "csv" c exports)))
               = set_property "tsv" t
                   (set_property "psv" p (set_property "csv" c exports))).
  { apply set_settled_other; [discriminate|]. apply set_again. }
  rewrite Hp.
  apply set_again.
Qed.


End Exports.

Lemma Init_keeps_other_properties_witness :
  get_property "version"
    (Init 4096 8192 12288
       (mkObject true [("version", (true, External 7 None))]))
  = get_property "version"
      (mkObject true [("version", (true, External 7 None))]).
Proof.
  apply (Init_keeps_other_properties 4096 8192 12288
           (mkObject true [("version", (true, External 7 None))]) "version");
    discriminate.
Defined.

End BindingFacts.
